(** * The IslandDAO methodology download server (download-server.py)

    A shallow embedding of [DownloadHandler.do_GET] and of the module's
    start-up code, together with the part of Python's [http.server] and
    [socketserver] that the module calls or is called by.

    Conventions.
    - A Python [str] is a [string]; text outside ASCII is kept in its
      UTF-8 encoding, so that [str.encode()] is the view of the same
      characters as bytes.  A Python [bytes] value is a [list byte].
    - The handler writes to an unbuffered socket file ([wbufsize = 0]):
      what [wfile.write] received has been sent to the client.  The wire
      is kept structured: one entry per block of header lines flushed
      and one entry per write of body bytes.  The reason phrase of the
      status line and the request log on standard error are the
      library's and are not modelled.
    - The model covers requests with an HTTP/1.x request line; for an
      HTTP/0.9 simple request the library skips the header block. *)

From Stdlib Require Import ZArith String Ascii Strings.Byte.
From stdpp Require Import base option list strings gmap pretty.

Local Open Scope Z_scope.

(** ** Files *)

(** Why a file cannot be opened or read. *)
Inductive errno := ENOENT | EACCES | EISDIR | EIO | ETIMEDOUT | EADDRINUSE.

(** An entry of the working directory: a regular file that can be read,
    or an entry whose [open] or [read] fails with the given error. *)
Inductive node :=
| File (data : list byte)
| Unreadable (e : errno).

Abbreviation filesystem := (gmap string node).

(** ** Exceptions and outcomes *)

Inductive exn :=
| OSError (e : errno) (filename : string)
| ValueError.

(** [TimeoutError] is the subclass of [OSError] for [ETIMEDOUT]. *)
Definition is_TimeoutError (x : exn) : bool :=
  match x with
  | OSError ETIMEDOUT _ => true
  | _ => false
  end.

Inductive outcome (A : Type) :=
| Return (a : A)
| Raise (x : exn).
Arguments Return {A} a.
Arguments Raise {A} x.

(** ** The wire *)

Inductive line :=
| StatusLine (code : Z)
| HeaderLine (keyword value : string)
| BlankLine.

(** The explicit message of [send_error]: the default one for the code,
    or the dispatcher's ["Unsupported method (%r)" % command]. *)
Inductive error_message :=
| DefaultMessage
| UnsupportedMethod (command : string).

Inductive packet :=
| Head (ls : list line)
| Payload (bs : list byte).

(** ** The handler object and its surroundings *)

Record world := {
  (* set by [parse_request] before the method is called *)
  command : string;
  path : string;
  (* the handler's own mutable attributes *)
  headers_buffer : list line;
  close_connection : bool;
  (* the connection *)
  wfile : list packet;
  (* the process's surroundings *)
  fs : filesystem;
  clock : string
}.

Definition set_headers_buffer (b : list line) (w : world) : world :=
  {| command := command w; path := path w; headers_buffer := b;
     close_connection := close_connection w; wfile := wfile w;
     fs := fs w; clock := clock w |}.

Definition set_close_connection (c : bool) (w : world) : world :=
  {| command := command w; path := path w; headers_buffer := headers_buffer w;
     close_connection := c; wfile := wfile w;
     fs := fs w; clock := clock w |}.

Definition set_wfile (o : list packet) (w : world) : world :=
  {| command := command w; path := path w; headers_buffer := headers_buffer w;
     close_connection := close_connection w; wfile := o;
     fs := fs w; clock := clock w |}.

Definition set_fs (f : filesystem) (w : world) : world :=
  {| command := command w; path := path w; headers_buffer := headers_buffer w;
     close_connection := close_connection w; wfile := wfile w;
     fs := f; clock := clock w |}.

(** ** Computations: state passing with exceptions

    A raised exception keeps the state reached so far, as in Python. *)

Definition state_exn (S A : Type) : Type := S -> outcome A * S.

Definition ret {S A} (a : A) : state_exn S A := fun s => (Return a, s).

Definition bind {S A B} (m : state_exn S A) (k : A -> state_exn S B) : state_exn S B :=
  fun s =>
    match m s with
    | (Return a, s') => k a s'
    | (Raise x, s') => (Raise x, s')
    end.

Definition raise {S A} (x : exn) : state_exn S A := fun s => (Raise x, s).

Definition get {S} : state_exn S S := fun s => (Return s, s).

Definition modify {S} (f : S -> S) : state_exn S unit := fun s => (Return tt, f s).

(** [try: m except <class>: h], for the exceptions [catches] selects. *)
Definition try_except {S A} (m : state_exn S A) (catches : exn -> bool)
    (h : exn -> state_exn S A) : state_exn S A :=
  fun s =>
    match m s with
    | (Raise x, s') => if catches x then h x s' else (Raise x, s')
    | r => r
    end.

(** Computations of the request handler. *)
Abbreviation M := (state_exn world).

Declare Scope py_scope.
Delimit Scope py_scope with py.
Notation "'let*' x := c 'in' k" := (bind c (fun x => k))
  (at level 10, x name, c at level 100, k at level 200) : py_scope.
Notation "c >> k" := (bind c (fun _ => k))
  (at level 62, right associativity) : py_scope.
Local Open Scope py_scope.

(** The library's pieces that the embedding takes as given. *)
Record library := {
  (* [self.version_string()] *)
  version_string : string;
  (* [error_message_format] filled in for a code and a message, encoded *)
  error_page : Z -> error_message -> list byte;
  (* [SimpleHTTPRequestHandler.do_HEAD], which the class inherits *)
  inherited_do_HEAD : M unit
}.

(** ** What the handler inherits from [BaseHTTPRequestHandler] *)

Definition send_response_only (code : Z) : M unit :=
  modify (fun w => set_headers_buffer (headers_buffer w ++ [StatusLine code]) w).

Definition ascii_lower (c : ascii) : ascii :=
  let n := N_of_ascii c in
  if ((65 <=? n) && (n <=? 90))%N then ascii_of_N (n + 32) else c.

Fixpoint lower (s : string) : string :=
  match s with
  | EmptyString => EmptyString
  | String c s' => String (ascii_lower c) (lower s')
  end.

Definition send_header (keyword value : string) : M unit :=
  modify (fun w => set_headers_buffer (headers_buffer w ++ [HeaderLine keyword value]) w) >>
  if String.eqb (lower keyword) "connection" then
    if String.eqb (lower value) "close" then modify (set_close_connection true)
    else if String.eqb (lower value) "keep-alive" then modify (set_close_connection false)
    else ret tt
  else ret tt.

Definition wfile_write (bs : list byte) : M unit :=
  modify (fun w => set_wfile (wfile w ++ [Payload bs]) w).

(** [wfile.flush()]: the socket file is unbuffered. *)
Definition wfile_flush : M unit := ret tt.

Definition flush_headers : M unit :=
  modify (fun w => set_headers_buffer [] (set_wfile (wfile w ++ [Head (headers_buffer w)]) w)).

Definition end_headers : M unit :=
  modify (fun w => set_headers_buffer (headers_buffer w ++ [BlankLine]) w) >>
  flush_headers.

Definition error_content_type : string := "text/html;charset=utf-8".

Definition no_body_codes : list Z := [204; 205; 304].

Section Library.

Variable lib : library.

Definition send_response (code : Z) : M unit :=
  send_response_only code >>
  send_header "Server" (version_string lib) >>
  let* self := get in
  send_header "Date" (clock self).

Definition send_error (code : Z) (message : error_message) : M unit :=
  send_response code >>
  send_header "Connection" "close" >>
  let body :=
    if (200 <=? code) && negb (bool_decide (code ∈ no_body_codes))
    then Some (error_page lib code message) else None in
  match body with
  | Some b =>
      send_header "Content-Type" error_content_type >>
      send_header "Content-Length" (pretty (length b))
  | None => ret tt
  end >>
  end_headers >>
  let* self := get in
  match body with
  | Some b =>
      if negb (String.eqb (command self) "HEAD") && negb (Nat.eqb (length b) 0)
      then wfile_write b else ret tt
  | None => ret tt
  end.

(** ** Files as Python opens them *)

Record file := { f_name : string; f_mode : string }.

(** [open(name, mode)]: reading needs an existing, readable entry and
    changes nothing; writing creates the entry or truncates it. *)
Definition open_ (name mode : string) : M file :=
  fun w =>
    if String.eqb mode "rb" then
      match fs w !! name with
      | Some (File _) => (Return {| f_name := name; f_mode := mode |}, w)
      | Some (Unreadable e) => (Raise (OSError e name), w)
      | None => (Raise (OSError ENOENT name), w)
      end
    else if String.eqb mode "wb" then
      match fs w !! name with
      | Some (Unreadable e) => (Raise (OSError e name), w)
      | _ => (Return {| f_name := name; f_mode := mode |},
              set_fs (<[name := File []]> (fs w)) w)
      end
    else (Raise ValueError, w).

(** [f.read()]: the whole contents. *)
Definition read (f : file) : M (list byte) :=
  fun w =>
    match fs w !! f_name f with
    | Some (File data) => (Return data, w)
    | Some (Unreadable e) => (Raise (OSError e (f_name f)), w)
    | None => (Raise (OSError EIO (f_name f)), w)
    end.

(** [with open(name, mode) as f: body]; closing the file on the way out
    changes nothing that is modelled. *)
Definition with_open {A} (name mode : string) (body : file -> M A) : M A :=
  let* f := open_ name mode in body f.

(** ** The landing page *)

Definition nl : string := String "010" EmptyString.
Definition dq : string := String "034" EmptyString.

(** U+1F4C4, in UTF-8. *)
Definition page_facing_up : string :=
  String "240" (String "159" (String "147" (String "132" EmptyString))).

(** The lines of the triple-quoted literal, which starts with a line
    break and ends with the indentation of its closing quotes. *)
Definition html_lines : list string := [
    EmptyString;
    "            <!DOCTYPE html>";
    "            <html>";
    "            <head>";
    "                <title>IslandDAO Governance Methodology Downloads</title>";
    "                <style>";
    "                    body { font-family: Arial, sans-serif; margin: 40px; }";
    "                    h1 { color: #333; }";
    "                    a { color: #0066cc; text-decoration: none; display: block; margin: 20px 0; }";
    "                    a:hover { text-decoration: underline; }";
    "                </style>";
    "            </head>";
    "            <body>";
    "                <h1>IslandDAO Governance Methodology Downloads</h1>";
    "                <p>Download the complete methodology documentation:</p>";
    "                <a href=" +:+ dq +:+ "/governance-methodology.txt" +:+ dq +:+ ">" +:+ page_facing_up +:+ " Download Plain Text Version (.txt)</a>";
    "                <a href=" +:+ dq +:+ "/governance-methodology.md" +:+ dq +:+ ">" +:+ page_facing_up +:+ " Download Formatted Version (.md)</a>";
    "            </body>";
    "            </html>";
    "            "
  ].

Fixpoint join_lines (ls : list string) : string :=
  match ls with
  | [] => EmptyString
  | [l] => l
  | l :: ls' => l +:+ nl +:+ join_lines ls'
  end.

Definition html : string := join_lines html_lines.

(** [str.encode()]. *)
Definition encode (s : string) : list byte := list_byte_of_string s.

(** ** The handler *)

Definition do_GET : M unit :=
  let* self := get in
  if String.eqb (path self) "/governance-methodology.txt" then
    send_response 200 >>
    send_header "Content-Type" "text/plain" >>
    send_header "Content-Disposition"
      ("attachment; filename=" +:+ dq +:+ "islanddao-governance-methodology.txt" +:+ dq) >>
    end_headers >>
    with_open "governance-power-methodology.txt" "rb" (fun f =>
      let* data := read f in
      wfile_write data)
  else if String.eqb (path self) "/governance-methodology.md" then
    send_response 200 >>
    send_header "Content-Type" "text/markdown" >>
    send_header "Content-Disposition"
      ("attachment; filename=" +:+ dq +:+ "islanddao-governance-methodology.md" +:+ dq) >>
    end_headers >>
    with_open "formatted-governance-methodology.md" "rb" (fun f =>
      let* data := read f in
      wfile_write data)
  else if String.eqb (path self) "/" then
    send_response 200 >>
    send_header "Content-Type" "text/html" >>
    end_headers >>
    wfile_write (encode html)
  else
    send_error 404 DefaultMessage.

(** ** The dispatcher, [BaseHTTPRequestHandler.handle_one_request]

    From the point where [parse_request] has set [command] and [path]. *)

(** The [do_] methods of the class: its own [do_GET], and [do_HEAD] from
    [SimpleHTTPRequestHandler]. *)
Definition hasattr (mname : string) : bool :=
  String.eqb mname "do_GET" || String.eqb mname "do_HEAD".

Definition getattr (mname : string) : M unit :=
  if String.eqb mname "do_GET" then do_GET else inherited_do_HEAD lib.

Definition handle_one_request : M unit :=
  try_except
    (let* self := get in
     let mname := "do_" +:+ command self in
     if negb (hasattr mname) then
       send_error 501 (UnsupportedMethod (command self))
     else
       getattr mname >>
       wfile_flush)
    is_TimeoutError
    (fun _ => modify (set_close_connection true)).

End Library.

(** ** The server loop, [socketserver.BaseServer.serve_forever]

    Each request is given a handler object of its own; an exception that
    leaves the handler is reported by [handle_error] and the loop goes
    on.  The protocol version is HTTP/1.0, so that a connection carries
    one request. *)

Record request := { r_command : string; r_path : string; r_clock : string }.

Definition new_handler (r : request) (f : filesystem) : world :=
  {| command := r_command r; path := r_path r;
     headers_buffer := []; close_connection := true;
     wfile := []; fs := f; clock := r_clock r |}.

(** What a client got, and how the handler ended. *)
Record exchange := { sent : list packet; ended : outcome unit }.

Definition finish_request (lib : library) (r : request) (f : filesystem)
    : exchange * filesystem :=
  let '(o, w) := handle_one_request lib (new_handler r f) in
  ({| sent := wfile w; ended := o |}, fs w).

Fixpoint serve (lib : library) (rs : list request) (f : filesystem)
    : list exchange * filesystem :=
  match rs with
  | [] => ([], f)
  | r :: rs' =>
      let '(x, f') := finish_request lib r f in
      let '(xs, f'') := serve lib rs' f' in
      (x :: xs, f'')
  end.

(** ** The response a client reads off the wire *)

Definition lines_of (ps : list packet) : list line :=
  ps ≫= (fun p => match p with Head ls => ls | Payload _ => [] end).

Definition status_of (ps : list packet) : option Z :=
  head (lines_of ps ≫= (fun l => match l with StatusLine c => [c] | _ => [] end)).

Definition headers_of (ps : list packet) : list (string * string) :=
  lines_of ps ≫= (fun l => match l with HeaderLine k v => [(k, v)] | _ => [] end).

Definition body_of (ps : list packet) : list byte :=
  ps ≫= (fun p => match p with Head _ => [] | Payload bs => bs end).

(** The first value of a header. *)
Fixpoint header (keyword : string) (hs : list (string * string)) : option string :=
  match hs with
  | [] => None
  | (k, v) :: hs' => if String.eqb k keyword then Some v else header keyword hs'
  end.

(** The headers other than the two that [send_response] adds by itself. *)
Definition handler_headers (hs : list (string * string)) : list (string * string) :=
  List.filter (fun kv => negb (String.eqb (kv.1) "Server" || String.eqb (kv.1) "Date")) hs.

Record response := {
  status : option Z;
  headers : list (string * string);
  body : list byte
}.

Definition response_of (ps : list packet) : response :=
  {| status := status_of ps;
     headers := headers_of ps;
     body := body_of ps |}.

(** The response to one request, the files being [f]. *)
Definition respond (lib : library) (r : request) (f : filesystem) : response :=
  response_of (sent (finish_request lib r f).1).

(** [needle in hay], on bytes. *)
Fixpoint starts_with (needle hay : list byte) : bool :=
  match needle, hay with
  | [], _ => true
  | _ :: _, [] => false
  | a :: needle', b :: hay' => Byte.eqb a b && starts_with needle' hay'
  end.

Fixpoint occurs (needle hay : list byte) : bool :=
  starts_with needle hay ||
  match hay with
  | [] => false
  | _ :: hay' => occurs needle hay'
  end.

Definition contains (needle hay : list byte) : Prop :=
  exists before after, hay = before ++ needle ++ after.

(** The paths that [do_GET] tells apart. *)
Definition known_paths : list string :=
  ["/governance-methodology.txt"; "/governance-methodology.md"; "/"].

(** A computation that leaves the files as they are. *)
Definition reads_only {A} (m : M A) : Prop :=
  forall w, fs (m w).2 = fs w.

(** ** Start-up *)

Record process := {
  argv : list string;
  environ : gmap string string;
  ports_in_use : gset Z;
  listening : option (string * Z);
  stdout : list string
}.

(** [socketserver.TCPServer(address, handler)]: binds and listens. *)
Definition TCPServer (address : string * Z) : state_exn process unit :=
  fun p =>
    if bool_decide (address.2 ∈ ports_in_use p) then
      (Raise (OSError EADDRINUSE EmptyString), p)
    else
      (Return tt,
       {| argv := argv p; environ := environ p; ports_in_use := ports_in_use p;
          listening := Some address; stdout := stdout p |}).

Definition print (s : string) : state_exn process unit :=
  modify (fun p =>
    {| argv := argv p; environ := environ p; ports_in_use := ports_in_use p;
       listening := listening p; stdout := stdout p ++ [s] |}).

Definition PORT : Z := 8080.

(** The module's top level, up to the call of [serve_forever]. *)
Definition startup : state_exn process unit :=
  TCPServer (EmptyString, PORT) >>
  print ("Download server running at http://localhost:" +:+ pretty PORT +:+ "/") >>
  print "Available downloads:" >>
  print ("  - http://localhost:" +:+ pretty PORT +:+ "/governance-methodology.txt") >>
  print ("  - http://localhost:" +:+ pretty PORT +:+ "/governance-methodology.md").

(** The module run against the requests that arrive: nothing is served
    when the start-up raised. *)
Definition main (lib : library) (rs : list request) (f : filesystem) (p : process)
    : process * option (list exchange * filesystem) :=
  match startup p with
  | (Return _, p') => (p', Some (serve lib rs f))
  | (Raise _, p') => (p', None)
  end.

(** ** Shapes of the wire, and inputs to try the code on *)

(** The block of header lines of a download. *)
Definition download_head (lib : library) (ck ctype fname : string) : packet :=
  Head [StatusLine 200;
        HeaderLine "Server" (version_string lib);
        HeaderLine "Date" ck;
        HeaderLine "Content-Type" ctype;
        HeaderLine "Content-Disposition"
          ("attachment; filename=" +:+ dq +:+ fname +:+ dq);
        BlankLine].

(** The error response of [send_error] for a request other than HEAD. *)
Definition error_wire (lib : library) (ck : string) (code : Z) (m : error_message)
    : list packet :=
  Head [StatusLine code;
        HeaderLine "Server" (version_string lib);
        HeaderLine "Date" ck;
        HeaderLine "Connection" "close";
        HeaderLine "Content-Type" error_content_type;
        HeaderLine "Content-Length" (pretty (length (error_page lib code m)));
        BlankLine]
  :: (if Nat.eqb (length (error_page lib code m)) 0 then []
      else [Payload (error_page lib code m)]).

(** The file behind a download cannot be read: it is missing, or it is
    an entry that fails to open. *)
Definition unreadable (f : filesystem) (name : string) : Prop :=
  forall data, f !! name <> Some (File data).

(** The file that [do_GET] opens for a path, if it opens one. *)
Definition backing_file (p : string) : option string :=
  if String.eqb p "/governance-methodology.txt"
  then Some "governance-power-methodology.txt"
  else if String.eqb p "/governance-methodology.md"
  then Some "formatted-governance-methodology.md"
  else None.

(** Some line of [out] shows [url]. *)
Definition shows (url : string) (out : list string) : Prop :=
  exists l, l ∈ out /\ contains (encode url) (encode l).

Definition sample_library : library :=
  {| version_string := "SimpleHTTP/0.6 Python/3.11.2";
     error_page := fun code _ => encode ("Error code: " +:+ pretty code);
     inherited_do_HEAD := ret tt |}.

Definition sample_files : filesystem :=
  <["governance-power-methodology.txt" := File (encode "Governance power")]>
    (<["formatted-governance-methodology.md" := File (encode "# Governance")]> ∅).

Definition sample_request (method target : string) : request :=
  {| r_command := method; r_path := target;
     r_clock := "Tue, 03 Nov 2026 10:00:00 GMT" |}.

Definition sample_process : process :=
  {| argv := ["download-server.py"; "--port"; "9000"];
     environ := <["PORT" := "9000"]> ∅;
     ports_in_use := ∅;
     listening := None;
     stdout := [] |}.

(** ** Reading a response the way a client does *)

(** A block of header lines as a client expects it: a status line, then
    header lines only, then the blank line. *)
Fixpoint headers_then_blank (ls : list line) : bool :=
  match ls with
  | [BlankLine] => true
  | HeaderLine _ _ :: ls' => headers_then_blank ls'
  | _ => false
  end.

Definition is_response_head (ls : list line) : bool :=
  match ls with
  | StatusLine _ :: ls' => headers_then_blank ls'
  | _ => false
  end.

(** The rest of [s] after [pre], when [s] starts with [pre]. *)
Fixpoint strip_prefix (pre s : string) : option string :=
  match pre, s with
  | EmptyString, _ => Some s
  | String a pre', String b s' =>
      if Ascii.eqb a b then strip_prefix pre' s' else None
  | String _ _, EmptyString => None
  end.

(** The characters of [s] before its first double quote. *)
Fixpoint until_quote (s : string) : string :=
  match s with
  | EmptyString => EmptyString
  | String c s' =>
      if Ascii.eqb c "034" then EmptyString else String c (until_quote s')
  end.

(** The link targets of a page: what stands between the quotes of each
    [href] attribute, in the order of the page. *)
Fixpoint hrefs (s : string) : list string :=
  match s with
  | EmptyString => []
  | String _ s' =>
      match strip_prefix ("href=" +:+ dq) s with
      | Some target => [until_quote target]
      | None => []
      end ++ hrefs s'
  end.

(** * Properties *)

(** ** Running the handler symbolically *)

(** The handler is run by reduction; what stays folded is what a
    statement speaks about.  A test on a string that is not known is
    brought to the same normal form in its hypothesis, and rewritten. *)
Tactic Notation "run" :=
  lazy -[encode html lookup gmap_lookup String.eq_dec String.countable
         insert pretty length Nat.eqb error_page version_string
         inherited_do_HEAD].

Tactic Notation "run" "in" hyp(H) :=
  lazy -[encode html lookup gmap_lookup String.eq_dec String.countable
         insert pretty length Nat.eqb error_page version_string
         inherited_do_HEAD] in H.

(** The same as [run], lists being left appended. *)
Tactic Notation "run_appending" :=
  lazy -[encode html lookup gmap_lookup String.eq_dec String.countable
         insert pretty length Nat.eqb error_page version_string
         inherited_do_HEAD app].

Ltac fresh_request r :=
  destruct r as [?c ?p ?ck]; simpl in *; subst.

(** A string that differs from each of the known paths. *)
Ltac not_a_known_path :=
  let Hin := fresh "Hin" in
  unfold known_paths; intros Hin;
  repeat (apply elem_of_cons in Hin as [Hin|Hin]; [discriminate Hin|]);
  apply elem_of_nil in Hin; exact Hin.

(** ** The wire, route by route *)

Lemma wire_txt lib r f data :
  r_command r = "GET" ->
  r_path r = "/governance-methodology.txt" ->
  f !! "governance-power-methodology.txt" = Some (File data) ->
  finish_request lib r f =
    ({| sent := [download_head lib (r_clock r) "text/plain"
                   "islanddao-governance-methodology.txt";
                 Payload data];
        ended := Return tt |}, f).
Proof.
  intros Hc Hp Hf. fresh_request r.
  run. rewrite Hf. run. rewrite Hf. reflexivity.
Qed.

Lemma wire_md lib r f data :
  r_command r = "GET" ->
  r_path r = "/governance-methodology.md" ->
  f !! "formatted-governance-methodology.md" = Some (File data) ->
  finish_request lib r f =
    ({| sent := [download_head lib (r_clock r) "text/markdown"
                   "islanddao-governance-methodology.md";
                 Payload data];
        ended := Return tt |}, f).
Proof.
  intros Hc Hp Hf. fresh_request r.
  run. rewrite Hf. run. rewrite Hf. reflexivity.
Qed.

Lemma wire_index lib r f :
  r_command r = "GET" ->
  r_path r = "/" ->
  finish_request lib r f =
    ({| sent := [Head [StatusLine 200;
                       HeaderLine "Server" (version_string lib);
                       HeaderLine "Date" (r_clock r);
                       HeaderLine "Content-Type" "text/html";
                       BlankLine];
                 Payload (encode html)];
        ended := Return tt |}, f).
Proof.
  intros Hc Hp. fresh_request r. reflexivity.
Qed.

Lemma unknown_path_tests (p : string) :
  p ∉ known_paths ->
  String.eqb p "/governance-methodology.txt" = false /\
  String.eqb p "/governance-methodology.md" = false /\
  String.eqb p "/" = false.
Proof.
  intros Hp. repeat split; apply String.eqb_neq; intros ->; apply Hp;
    unfold known_paths; set_solver.
Qed.

Lemma wire_404 lib r f :
  r_command r = "GET" ->
  r_path r ∉ known_paths ->
  finish_request lib r f =
    ({| sent := error_wire lib (r_clock r) 404 DefaultMessage;
        ended := Return tt |}, f).
Proof.
  intros Hc Hp. apply unknown_path_tests in Hp as (E1 & E2 & E3).
  fresh_request r. unfold error_wire.
  run in E1. run in E2. run in E3. run. rewrite E1, E2, E3.
  destruct (Nat.eqb _ 0); reflexivity.
Qed.

Lemma wire_501 lib r f :
  r_command r <> "GET" ->
  r_command r <> "HEAD" ->
  finish_request lib r f =
    ({| sent := error_wire lib (r_clock r) 501 (UnsupportedMethod (r_command r));
        ended := Return tt |}, f).
Proof.
  intros Hg Hh. apply String.eqb_neq in Hg, Hh.
  fresh_request r. unfold error_wire.
  run in Hg. run in Hh. run. rewrite Hg, Hh. run. rewrite Hh.
  destruct (Nat.eqb _ 0); reflexivity.
Qed.

(** A download whose file cannot be read: the block of header lines has
    gone out when [open] raises. *)
Lemma do_GET_txt_unreadable lib r f :
  r_path r = "/governance-methodology.txt" ->
  unreadable f "governance-power-methodology.txt" ->
  exists e,
    do_GET lib (new_handler r f) =
      (Raise (OSError e "governance-power-methodology.txt"),
       set_wfile [download_head lib (r_clock r) "text/plain"
                    "islanddao-governance-methodology.txt"]
         (new_handler r f)).
Proof.
  intros Hp Hf. fresh_request r.
  destruct (f !! "governance-power-methodology.txt") as [[data|e]|] eqn:E.
  - destruct (Hf data); exact E.
  - exists e. run. rewrite E. reflexivity.
  - exists ENOENT. run. rewrite E. reflexivity.
Qed.

Lemma do_GET_md_unreadable lib r f :
  r_path r = "/governance-methodology.md" ->
  unreadable f "formatted-governance-methodology.md" ->
  exists e,
    do_GET lib (new_handler r f) =
      (Raise (OSError e "formatted-governance-methodology.md"),
       set_wfile [download_head lib (r_clock r) "text/markdown"
                    "islanddao-governance-methodology.md"]
         (new_handler r f)).
Proof.
  intros Hp Hf. fresh_request r.
  destruct (f !! "formatted-governance-methodology.md") as [[data|e]|] eqn:E.
  - destruct (Hf data); exact E.
  - exists e. run. rewrite E. reflexivity.
  - exists ENOENT. run. rewrite E. reflexivity.
Qed.

(** The dispatcher on a GET request: [do_GET], and the one exception it
    takes in. *)
Lemma finish_GET lib r f :
  r_command r = "GET" ->
  finish_request lib r f =
    match do_GET lib (new_handler r f) with
    | (Return _, w) => ({| sent := wfile w; ended := Return tt |}, fs w)
    | (Raise x, w) =>
        ({| sent := wfile w;
            ended := if is_TimeoutError x then Return tt else Raise x |}, fs w)
    end.
Proof.
  intros Hc. fresh_request r.
  unfold finish_request, handle_one_request, try_except.
  change (bind get ?k ?w) with (k w w).
  cbv beta. change (hasattr _) with true.
  change (getattr lib _) with (do_GET lib).
  cbv beta iota delta [negb bind wfile_flush ret modify].
  destruct (do_GET lib _) as [[[]|x] w]; [reflexivity|].
  destruct (is_TimeoutError x); reflexivity.
Qed.

(** ** Files are only read *)

Lemma do_GET_reads_only lib : reads_only (do_GET lib).
Proof.
  intros [c p hb cc wf f ck].
  destruct (String.eqb_spec p "/governance-methodology.txt") as [->|N1].
  { destruct (f !! "governance-power-methodology.txt") as [[data|e]|] eqn:E;
      repeat (run; rewrite ?E); reflexivity. }
  destruct (String.eqb_spec p "/governance-methodology.md") as [->|N2].
  { destruct (f !! "formatted-governance-methodology.md") as [[data|e]|] eqn:E;
      repeat (run; rewrite ?E); reflexivity. }
  destruct (String.eqb_spec p "/") as [->|N3]; [reflexivity|].
  apply String.eqb_neq in N1, N2, N3.
  destruct (String.eqb c "HEAD") eqn:Eh.
  all: run in N1; run in N2; run in N3; run in Eh.
  all: run; rewrite N1, N2, N3, ?Eh.
  all: try destruct (Nat.eqb _ 0); reflexivity.
Qed.

Lemma finish_request_reads_only lib r f :
  reads_only (inherited_do_HEAD lib) ->
  (finish_request lib r f).2 = f.
Proof.
  intros Hhead.
  destruct (String.eqb_spec (r_command r) "GET") as [Hg|Hg].
  { rewrite finish_GET by exact Hg.
    pose proof (do_GET_reads_only lib (new_handler r f)) as Hfs.
    destruct (do_GET lib _) as [[[]|x] w]; exact Hfs. }
  destruct (String.eqb_spec (r_command r) "HEAD") as [Hh|Hh].
  { fresh_request r.
    unfold finish_request, handle_one_request, try_except.
    change (bind get ?k ?w) with (k w w).
    cbv beta. change (hasattr _) with true.
    change (getattr lib _) with (inherited_do_HEAD lib).
    cbv beta iota delta [negb bind wfile_flush ret modify].
    match goal with |- context [inherited_do_HEAD lib ?w] =>
      pose proof (Hhead w) as Hfs; destruct (inherited_do_HEAD lib w) as [[[]|x] w']
    end; [exact Hfs|].
    destruct (is_TimeoutError x); exact Hfs. }
  rewrite wire_501 by assumption. reflexivity.
Qed.

Lemma serve_reads_only lib rs f :
  reads_only (inherited_do_HEAD lib) ->
  (serve lib rs f).2 = f.
Proof.
  intros Hhead. induction rs as [|r rs IH]; [reflexivity|].
  cbn [serve].
  pose proof (finish_request_reads_only lib r f Hhead) as Hr.
  destruct (finish_request lib r f) as [x f']. simpl in Hr. subst f'.
  destruct (serve lib rs f) as [xs f'']. exact IH.
Qed.

Lemma serve_snoc lib rs r f :
  reads_only (inherited_do_HEAD lib) ->
  (serve lib (rs ++ [r]) f).1 = (serve lib rs f).1 ++ [(finish_request lib r f).1].
Proof.
  intros Hhead. induction rs as [|r0 rs IH].
  - cbn [serve app]. destruct (finish_request lib r f) as [x f']. reflexivity.
  - cbn [serve app].
    pose proof (finish_request_reads_only lib r0 f Hhead) as Hr.
    destruct (finish_request lib r0 f) as [x0 f']. simpl in Hr. subst f'.
    destruct (serve lib (rs ++ [r]) f) as [xs1 f1].
    destruct (serve lib rs f) as [xs0 f0].
    simpl in *. rewrite IH. reflexivity.
Qed.

(** ** Searching bytes *)

Lemma starts_with_prefix needle hay :
  starts_with needle hay = true -> exists after, hay = needle ++ after.
Proof.
  revert hay. induction needle as [|a needle IH]; intros hay H.
  - exists hay. reflexivity.
  - destruct hay as [|b hay]; [discriminate|].
    cbn [starts_with] in H. apply andb_prop in H as [Hab Hrest].
    apply Byte.byte_dec_bl in Hab. subst b.
    destruct (IH _ Hrest) as [after ->]. exists after. reflexivity.
Qed.

Lemma occurs_contains needle hay :
  occurs needle hay = true -> contains needle hay.
Proof.
  induction hay as [|b hay IH]; intros H.
  - cbn [occurs] in H. rewrite orb_false_r in H.
    apply starts_with_prefix in H as [after ->]. exists [], after. reflexivity.
  - cbn [occurs] in H. apply orb_prop in H as [H|H].
    + apply starts_with_prefix in H as [after ->]. exists [], after. reflexivity.
    + destruct (IH H) as (before & after & ->).
      exists (b :: before), after. reflexivity.
Qed.

(** ** The three routes that answer 200 *)

Lemma body_head_payload ls bs : body_of [Head ls; Payload bs] = bs.
Proof. cbn. apply app_nil_r. Qed.

(** C1.  A GET request whose path is exactly [/governance-methodology.txt]
    is answered with status 200, [Content-Type: text/plain] and the
    [Content-Disposition] header naming
    [islanddao-governance-methodology.txt] as an attachment; and the
    body is, byte for byte, what the plain-text file holds when the
    request is handled. *)
Theorem get_txt_serves_the_text_file lib r f :
  r_command r = "GET" ->
  r_path r = "/governance-methodology.txt" ->
  status (respond lib r f) = Some 200 /\
  header "Content-Type" (headers (respond lib r f)) = Some "text/plain" /\
  header "Content-Disposition" (headers (respond lib r f)) =
    Some ("attachment; filename=" +:+ dq +:+
          "islanddao-governance-methodology.txt" +:+ dq) /\
  (forall data,
     f !! "governance-power-methodology.txt" = Some (File data) ->
     body (respond lib r f) = data /\
     ended (finish_request lib r f).1 = Return tt).
Proof.
  intros Hc Hp. unfold respond.
  destruct (f !! "governance-power-methodology.txt") as [[data|e]|] eqn:E.
  - rewrite (wire_txt lib r f data Hc Hp E).
    do 3 (split; [reflexivity|]). intros data' [= <-].
    split; [apply app_nil_r|reflexivity].
  - destruct (do_GET_txt_unreadable lib r f Hp) as [e' He].
    { intros data. rewrite E. discriminate. }
    rewrite (finish_GET lib r f Hc), He.
    do 3 (split; [reflexivity|]). intros data' Hd. discriminate Hd.
  - destruct (do_GET_txt_unreadable lib r f Hp) as [e' He].
    { intros data. rewrite E. discriminate. }
    rewrite (finish_GET lib r f Hc), He.
    do 3 (split; [reflexivity|]). intros data' Hd. discriminate Hd.
Qed.

Lemma get_txt_serves_the_text_file_witness :
  sample_files !! "governance-power-methodology.txt"
    = Some (File (encode "Governance power")) /\
  status (respond sample_library
            (sample_request "GET" "/governance-methodology.txt") sample_files)
    = Some 200 /\
  body (respond sample_library
          (sample_request "GET" "/governance-methodology.txt") sample_files)
    = encode "Governance power".
Proof.
  pose proof (get_txt_serves_the_text_file sample_library
                (sample_request "GET" "/governance-methodology.txt") sample_files
                eq_refl eq_refl) as (Hstatus & _ & _ & Hbody).
  destruct (Hbody (encode "Governance power") eq_refl) as [Hdata _].
  split; [reflexivity|]. split; [exact Hstatus | exact Hdata].
Defined.

(** C2.  A GET request whose path is exactly [/governance-methodology.md]
    is answered with status 200, [Content-Type: text/markdown] and the
    [Content-Disposition] header naming
    [islanddao-governance-methodology.md] as an attachment; and the body
    is, byte for byte, what the Markdown file holds when the request is
    handled. *)
Theorem get_md_serves_the_markdown_file lib r f :
  r_command r = "GET" ->
  r_path r = "/governance-methodology.md" ->
  status (respond lib r f) = Some 200 /\
  header "Content-Type" (headers (respond lib r f)) = Some "text/markdown" /\
  header "Content-Disposition" (headers (respond lib r f)) =
    Some ("attachment; filename=" +:+ dq +:+
          "islanddao-governance-methodology.md" +:+ dq) /\
  (forall data,
     f !! "formatted-governance-methodology.md" = Some (File data) ->
     body (respond lib r f) = data /\
     ended (finish_request lib r f).1 = Return tt).
Proof.
  intros Hc Hp. unfold respond.
  destruct (f !! "formatted-governance-methodology.md") as [[data|e]|] eqn:E.
  - rewrite (wire_md lib r f data Hc Hp E).
    do 3 (split; [reflexivity|]). intros data' [= <-].
    split; [apply app_nil_r|reflexivity].
  - destruct (do_GET_md_unreadable lib r f Hp) as [e' He].
    { intros data. rewrite E. discriminate. }
    rewrite (finish_GET lib r f Hc), He.
    do 3 (split; [reflexivity|]). intros data' Hd. discriminate Hd.
  - destruct (do_GET_md_unreadable lib r f Hp) as [e' He].
    { intros data. rewrite E. discriminate. }
    rewrite (finish_GET lib r f Hc), He.
    do 3 (split; [reflexivity|]). intros data' Hd. discriminate Hd.
Qed.

Lemma get_md_serves_the_markdown_file_witness :
  sample_files !! "formatted-governance-methodology.md"
    = Some (File (encode "# Governance")) /\
  status (respond sample_library
            (sample_request "GET" "/governance-methodology.md") sample_files)
    = Some 200 /\
  body (respond sample_library
          (sample_request "GET" "/governance-methodology.md") sample_files)
    = encode "# Governance".
Proof.
  pose proof (get_md_serves_the_markdown_file sample_library
                (sample_request "GET" "/governance-methodology.md") sample_files
                eq_refl eq_refl) as (Hstatus & _ & _ & Hbody).
  destruct (Hbody (encode "# Governance") eq_refl) as [Hdata _].
  split; [reflexivity|]. split; [exact Hstatus | exact Hdata].
Defined.

(** C3.  A GET request whose path is exactly [/] is answered with status
    200, [Content-Type: text/html] and one fixed body, the encoded page,
    in which both [/governance-methodology.txt] and
    [/governance-methodology.md] occur. *)
Theorem get_root_serves_the_page lib r f :
  r_command r = "GET" ->
  r_path r = "/" ->
  status (respond lib r f) = Some 200 /\
  header "Content-Type" (headers (respond lib r f)) = Some "text/html" /\
  body (respond lib r f) = encode html /\
  contains (encode "/governance-methodology.txt") (body (respond lib r f)) /\
  contains (encode "/governance-methodology.md") (body (respond lib r f)) /\
  ended (finish_request lib r f).1 = Return tt.
Proof.
  intros Hc Hp. unfold respond.
  rewrite (wire_index lib r f Hc Hp).
  cbn [fst sent response_of body]. rewrite body_head_payload.
  repeat split; try reflexivity.
  - apply occurs_contains. vm_compute. reflexivity.
  - apply occurs_contains. vm_compute. reflexivity.
Qed.

Lemma get_root_serves_the_page_witness :
  status (respond sample_library (sample_request "GET" "/") sample_files)
    = Some 200 /\
  contains (encode "/governance-methodology.md")
    (body (respond sample_library (sample_request "GET" "/") ∅)).
Proof.
  split.
  - apply (get_root_serves_the_page sample_library
             (sample_request "GET" "/") sample_files); reflexivity.
  - apply (get_root_serves_the_page sample_library
             (sample_request "GET" "/") ∅); reflexivity.
Defined.

(** ** Requests that match no route *)

Lemma status_of_error_wire lib ck code m :
  status_of (error_wire lib ck code m) = Some code.
Proof. reflexivity. Qed.

(** C4, as the code has it.  A GET request whose path is none of the
    three known paths is answered 404.  A request whose method has no
    [do_] method in the class, which is every method other than GET and
    HEAD, and POST among them, on whatever path, never reaches [do_GET]:
    the dispatcher answers it 501. *)
Theorem unknown_path_404_unknown_method_501 lib r f :
  (r_command r = "GET" -> r_path r ∉ known_paths ->
     status (respond lib r f) = Some 404) /\
  (r_command r <> "GET" -> r_command r <> "HEAD" ->
     status (respond lib r f) = Some 501).
Proof.
  split.
  - intros Hc Hp. unfold respond. rewrite (wire_404 lib r f Hc Hp).
    apply status_of_error_wire.
  - intros Hg Hh. unfold respond. rewrite (wire_501 lib r f Hg Hh).
    apply status_of_error_wire.
Qed.

Lemma unknown_path_404_unknown_method_501_witness :
  status (respond sample_library (sample_request "GET" "/unknown") sample_files)
    = Some 404 /\
  status (respond sample_library
            (sample_request "POST" "/governance-methodology.txt") sample_files)
    = Some 501.
Proof.
  split.
  - apply (proj1 (unknown_path_404_unknown_method_501 sample_library
                    (sample_request "GET" "/unknown") sample_files)).
    + reflexivity.
    + simpl. not_a_known_path.
  - apply (proj2 (unknown_path_404_unknown_method_501 sample_library
                    (sample_request "POST" "/governance-methodology.txt")
                    sample_files)); discriminate.
Defined.

(** C4 as stated fails: POST to [/] is a request whose method is not
    GET, and its answer is 501, not 404. *)
Lemma post_to_root_is_not_404 :
  r_command (sample_request "POST" "/") <> "GET" /\
  status (respond sample_library (sample_request "POST" "/") sample_files)
    = Some 501 /\
  status (respond sample_library (sample_request "POST" "/") sample_files)
    <> Some 404.
Proof.
  split; [discriminate|]. split; [reflexivity|discriminate].
Qed.

(** C10.  The whole request target is compared: a GET for a known path
    followed by [?] and a query string matches no branch and is answered
    404. *)
Theorem query_string_misses_every_route lib r f p q :
  r_command r = "GET" ->
  p ∈ known_paths ->
  r_path r = p +:+ "?" +:+ q ->
  status (respond lib r f) = Some 404.
Proof.
  intros Hc Hp Hr.
  unfold respond. rewrite (wire_404 lib r f Hc); [apply status_of_error_wire|].
  rewrite Hr. unfold known_paths in *.
  repeat (apply elem_of_cons in Hp as [->|Hp]);
    [| | | apply elem_of_nil in Hp; destruct Hp].
  all: not_a_known_path.
Qed.

Lemma query_string_misses_every_route_witness :
  status (respond sample_library
            (sample_request "GET" "/governance-methodology.txt?x=1") sample_files)
    = Some 404 /\
  status (respond sample_library (sample_request "GET" "/?x=1") sample_files)
    = Some 404.
Proof.
  split.
  - apply (query_string_misses_every_route sample_library
             (sample_request "GET" "/governance-methodology.txt?x=1")
             sample_files "/governance-methodology.txt" "x=1");
      [reflexivity | unfold known_paths; set_solver | reflexivity].
  - apply (query_string_misses_every_route sample_library
             (sample_request "GET" "/?x=1") sample_files "/" "x=1");
      [reflexivity | unfold known_paths; set_solver | reflexivity].
Defined.

(** ** A download whose file cannot be read *)

Lemma backing_file_cases p name :
  backing_file p = Some name ->
  (p = "/governance-methodology.txt" /\ name = "governance-power-methodology.txt") \/
  (p = "/governance-methodology.md" /\ name = "formatted-governance-methodology.md").
Proof.
  unfold backing_file.
  destruct (String.eqb_spec p "/governance-methodology.txt") as [->|_].
  { intros [= <-]. left. split; reflexivity. }
  destruct (String.eqb_spec p "/governance-methodology.md") as [->|_].
  { intros [= <-]. right. split; reflexivity. }
  discriminate.
Qed.

Lemma do_GET_unreadable lib r f name :
  backing_file (r_path r) = Some name ->
  unreadable f name ->
  exists e ctype fname,
    do_GET lib (new_handler r f) =
      (Raise (OSError e name),
       set_wfile [download_head lib (r_clock r) ctype fname] (new_handler r f)).
Proof.
  intros Hb Hf. apply backing_file_cases in Hb as [[Hp ->]|[Hp ->]].
  - destruct (do_GET_txt_unreadable lib r f Hp Hf) as [e He]. eauto.
  - destruct (do_GET_md_unreadable lib r f Hp Hf) as [e He]. eauto.
Qed.

(** C5 as stated fails: with the text file missing, the handler raises
    after the status line 200 and the headers have gone out to the
    client. *)
Lemma failed_download_has_sent_its_head :
  backing_file "/governance-methodology.txt" = Some "governance-power-methodology.txt" /\
  (∅ : filesystem) !! "governance-power-methodology.txt" = None /\
  (do_GET sample_library
     (new_handler (sample_request "GET" "/governance-methodology.txt") ∅)).1
    = Raise (OSError ENOENT "governance-power-methodology.txt") /\
  wfile (do_GET sample_library
           (new_handler (sample_request "GET" "/governance-methodology.txt") ∅)).2
    <> wfile (new_handler (sample_request "GET" "/governance-methodology.txt") ∅) /\
  status (respond sample_library
            (sample_request "GET" "/governance-methodology.txt") ∅) = Some 200.
Proof.
  repeat split; try reflexivity. discriminate.
Qed.

(** C5, as the code has it.  Requests are handled independently: the
    exchange a request gets is the one it would get on its own, whatever
    requests were handled before it.  When a GET for one of the two file
    paths fails because the file cannot be read, no byte of a body has
    been sent and no header line is left pending in the handler. *)
Theorem requests_are_independent lib :
  reads_only (inherited_do_HEAD lib) ->
  (forall rs r f,
     (serve lib (rs ++ [r]) f).1 = (serve lib rs f).1 ++ [(finish_request lib r f).1]) /\
  (forall r f name,
     r_command r = "GET" ->
     backing_file (r_path r) = Some name ->
     unreadable f name ->
     body (respond lib r f) = [] /\
     headers_buffer (do_GET lib (new_handler r f)).2 = []).
Proof.
  intros Hhead. split.
  - intros rs r f. apply serve_snoc. exact Hhead.
  - intros r f name Hc Hb Hf.
    destruct (do_GET_unreadable lib r f name Hb Hf) as (e & ctype & fname & He).
    unfold respond. rewrite (finish_GET lib r f Hc), He.
    split; reflexivity.
Qed.

Lemma requests_are_independent_witness :
  (serve sample_library
     [sample_request "GET" "/governance-methodology.md";
      sample_request "POST" "/";
      sample_request "GET" "/governance-methodology.txt"] ∅).1
  = (serve sample_library
       [sample_request "GET" "/governance-methodology.md";
        sample_request "POST" "/"] ∅).1
    ++ [(finish_request sample_library
           (sample_request "GET" "/governance-methodology.txt") ∅).1].
Proof.
  refine (proj1 (requests_are_independent sample_library _)
            [sample_request "GET" "/governance-methodology.md";
             sample_request "POST" "/"]
            (sample_request "GET" "/governance-methodology.txt") ∅).
  intros w. reflexivity.
Defined.

(** C6.  A GET for one of the two file paths whose file is missing or
    cannot be read fails with the I/O error of [open]: the error leaves
    [do_GET], which sends no 500 response, and, unless it is a timeout
    that the dispatcher takes in, it leaves the dispatcher as well. *)
Theorem unreadable_file_raises lib r f name :
  r_command r = "GET" ->
  backing_file (r_path r) = Some name ->
  unreadable f name ->
  exists e,
    (do_GET lib (new_handler r f)).1 = Raise (OSError e name) /\
    (StatusLine 500 ∉ lines_of (wfile (do_GET lib (new_handler r f)).2)) /\
    (e <> ETIMEDOUT -> ended (finish_request lib r f).1 = Raise (OSError e name)).
Proof.
  intros Hc Hb Hf.
  destruct (do_GET_unreadable lib r f name Hb Hf) as (e & ctype & fname & He).
  exists e. rewrite (finish_GET lib r f Hc), He. repeat split.
  - cbn. intros Hin.
    repeat (apply elem_of_cons in Hin as [Hin|Hin]; [discriminate Hin|]).
    apply elem_of_nil in Hin. exact Hin.
  - intros Hne. destruct e; try reflexivity. destruct Hne. reflexivity.
Qed.

Lemma unreadable_file_raises_witness :
  exists e,
    (do_GET sample_library
       (new_handler (sample_request "GET" "/governance-methodology.md") ∅)).1
      = Raise (OSError e "formatted-governance-methodology.md") /\
    (StatusLine 500 ∉
      lines_of (wfile (do_GET sample_library
         (new_handler (sample_request "GET" "/governance-methodology.md") ∅)).2)) /\
    (e <> ETIMEDOUT ->
     ended (finish_request sample_library
              (sample_request "GET" "/governance-methodology.md") ∅).1
       = Raise (OSError e "formatted-governance-methodology.md")).
Proof.
  apply (unreadable_file_raises sample_library
           (sample_request "GET" "/governance-methodology.md") ∅
           "formatted-governance-methodology.md").
  - reflexivity.
  - reflexivity.
  - intros data. rewrite lookup_empty. discriminate.
Defined.

(** ** Determinism, and what handling leaves behind *)

(** C7.  Two GET requests to the same path, the second served from the
    files the first left, get the same outcome, status, handler-set
    headers and body, whatever the clock shows at each; and the files
    after both are the files before. *)
Theorem repeated_get_is_answered_the_same lib r1 r2 f :
  r_command r1 = "GET" ->
  r_command r2 = "GET" ->
  r_path r1 = r_path r2 ->
  (serve lib [r1; r2] f).2 = f /\
  match (serve lib [r1; r2] f).1 with
  | [x1; x2] =>
      ended x1 = ended x2 /\
      status (response_of (sent x1)) = status (response_of (sent x2)) /\
      handler_headers (headers (response_of (sent x1)))
        = handler_headers (headers (response_of (sent x2))) /\
      body (response_of (sent x1)) = body (response_of (sent x2))
  | _ => False
  end.
Proof.
  intros Hc1 Hc2 Hp. fresh_request r1. fresh_request r2.
  destruct (String.eqb_spec p "/governance-methodology.txt") as [->|N1].
  { destruct (f !! "governance-power-methodology.txt") as [[data|[]]|] eqn:E;
      repeat (run; rewrite ?E); repeat split. }
  destruct (String.eqb_spec p "/governance-methodology.md") as [->|N2].
  { destruct (f !! "formatted-governance-methodology.md") as [[data|[]]|] eqn:E;
      repeat (run; rewrite ?E); repeat split. }
  destruct (String.eqb_spec p "/") as [->|N3]; [run; repeat split|].
  apply String.eqb_neq in N1, N2, N3.
  run in N1. run in N2. run in N3.
  repeat (run; rewrite ?N1, ?N2, ?N3).
  destruct (Nat.eqb _ 0); repeat split.
Qed.

Lemma repeated_get_is_answered_the_same_witness :
  (serve sample_library
     [sample_request "GET" "/governance-methodology.txt";
      {| r_command := "GET"; r_path := "/governance-methodology.txt";
         r_clock := "Wed, 04 Nov 2026 09:30:00 GMT" |}] sample_files).2
  = sample_files.
Proof.
  pose proof (repeated_get_is_answered_the_same sample_library
                (sample_request "GET" "/governance-methodology.txt")
                {| r_command := "GET"; r_path := "/governance-methodology.txt";
                   r_clock := "Wed, 04 Nov 2026 09:30:00 GMT" |} sample_files
                eq_refl eq_refl eq_refl) as [Hfiles _].
  exact Hfiles.
Defined.

(** C8.  Handling a request leaves the files as they were: [do_GET]
    opens files for reading only, from whatever state it starts, and so
    does the server over any run of requests, the inherited [do_HEAD]
    being one that only reads. *)
Theorem files_are_never_written :
  (forall lib w, fs (do_GET lib w).2 = fs w) /\
  (forall lib, reads_only (inherited_do_HEAD lib) ->
     forall rs f, (serve lib rs f).2 = f).
Proof.
  split.
  - intros lib w. apply do_GET_reads_only.
  - intros lib Hhead rs f. apply serve_reads_only. exact Hhead.
Qed.

Lemma files_are_never_written_witness :
  (serve sample_library
     [sample_request "GET" "/governance-methodology.txt";
      sample_request "HEAD" "/";
      sample_request "PUT" "/governance-methodology.md";
      sample_request "GET" "/nowhere"] sample_files).2
  = sample_files.
Proof.
  refine (proj2 files_are_never_written sample_library _ _ sample_files).
  intros w. reflexivity.
Defined.

(** ** Start-up *)

Lemma encode_app a b : encode (a +:+ b) = encode a ++ encode b.
Proof.
  unfold encode, list_byte_of_string.
  induction a as [|c a IH]; [reflexivity|].
  change (String c a +:+ b) with (String c (a +:+ b)).
  cbn [list_ascii_of_string map app]. f_equal. exact IH.
Qed.

Lemma shows_suffix url pre out :
  (pre +:+ url) ∈ out -> shows url out.
Proof.
  intros Hin. exists (pre +:+ url). split; [exact Hin|].
  exists (encode pre), []. rewrite app_nil_r. apply encode_app.
Qed.

(** C9.  Whatever the arguments and the environment of the process, the
    only address the start-up binds is port 8080 on all interfaces; and
    when the port is free the server listens there and has printed, in
    this order, the line with the listening URL, a heading, and the
    lines with the two download URLs. *)
Theorem startup_listens_on_8080_and_prints_urls p :
  (listening (startup p).2 = listening p \/
   listening (startup p).2 = Some (EmptyString, 8080)) /\
  (8080 ∉ ports_in_use p ->
   (startup p).1 = Return tt /\
   listening (startup p).2 = Some (EmptyString, 8080) /\
   stdout (startup p).2 =
     stdout p ++
       ["Download server running at http://localhost:8080/";
        "Available downloads:";
        "  - http://localhost:8080/governance-methodology.txt";
        "  - http://localhost:8080/governance-methodology.md"] /\
   shows "http://localhost:8080/" (stdout (startup p).2) /\
   shows "http://localhost:8080/governance-methodology.txt" (stdout (startup p).2) /\
   shows "http://localhost:8080/governance-methodology.md" (stdout (startup p).2)).
Proof.
  assert (Hfree : 8080 ∉ ports_in_use p ->
    startup p = (Return tt,
      {| argv := argv p; environ := environ p; ports_in_use := ports_in_use p;
         listening := Some (EmptyString, 8080);
         stdout := stdout p ++
           ["Download server running at http://localhost:8080/";
            "Available downloads:";
            "  - http://localhost:8080/governance-methodology.txt";
            "  - http://localhost:8080/governance-methodology.md"] |})).
  { intros Hp. unfold startup, bind, TCPServer, print, modify, PORT. cbn [snd].
    rewrite bool_decide_eq_false_2 by exact Hp.
    cbn [stdout argv environ ports_in_use listening].
    rewrite <- !app_assoc. reflexivity. }
  split.
  - destruct (decide (8080 ∈ ports_in_use p)) as [Hin|Hout].
    + left. unfold startup, bind, TCPServer, PORT. cbn [snd].
      rewrite bool_decide_eq_true_2 by exact Hin. reflexivity.
    + right. rewrite (Hfree Hout). reflexivity.
  - intros Hout. rewrite (Hfree Hout). cbn [fst snd stdout listening].
    repeat split.
    + apply (shows_suffix _ "Download server running at ").
      apply elem_of_app. right. set_solver.
    + apply (shows_suffix _ "  - ").
      apply elem_of_app. right. set_solver.
    + apply (shows_suffix _ "  - ").
      apply elem_of_app. right. set_solver.
Qed.

Lemma startup_listens_on_8080_and_prints_urls_witness :
  (8080 ∉ ports_in_use sample_process) /\
  listening (startup sample_process).2 = Some (EmptyString, 8080) /\
  stdout (startup sample_process).2 =
    ["Download server running at http://localhost:8080/";
     "Available downloads:";
     "  - http://localhost:8080/governance-methodology.txt";
     "  - http://localhost:8080/governance-methodology.md"].
Proof.
  assert (Hfree : 8080 ∉ ports_in_use sample_process).
  { unfold sample_process. cbn [ports_in_use]. apply not_elem_of_empty. }
  split; [exact Hfree|].
  destruct (proj2 (startup_listens_on_8080_and_prints_urls sample_process) Hfree)
    as (_ & Hl & Hs & _).
  split; [exact Hl | exact Hs].
Defined.

(** * Further properties of the handler *)

(** ** What a response depends on *)

(** X1.  The answer to a GET request depends on the files only through
    the one file its route opens: two sets of files that agree on that
    file give the same exchange.  The page and the 404 answer depend on
    no file at all, and no other file of the directory is ever served. *)
Theorem get_depends_on_its_backing_file_only lib r f1 f2 :
  r_command r = "GET" ->
  (forall name, backing_file (r_path r) = Some name -> f1 !! name = f2 !! name) ->
  (finish_request lib r f1).1 = (finish_request lib r f2).1.
Proof.
  intros Hc Hsame. fresh_request r.
  destruct (String.eqb_spec p "/governance-methodology.txt") as [->|N1].
  { pose proof (Hsame _ eq_refl) as E1.
    destruct (f2 !! "governance-power-methodology.txt") as [[data|[]]|] eqn:E2;
      repeat (run; rewrite ?E1, ?E2); reflexivity. }
  destruct (String.eqb_spec p "/governance-methodology.md") as [->|N2].
  { pose proof (Hsame _ eq_refl) as E1.
    destruct (f2 !! "formatted-governance-methodology.md") as [[data|[]]|] eqn:E2;
      repeat (run; rewrite ?E1, ?E2); reflexivity. }
  destruct (String.eqb_spec p "/") as [->|N3]; [reflexivity|].
  assert (Hp : p ∉ known_paths).
  { unfold known_paths. intros Hin.
    repeat (apply elem_of_cons in Hin as [Hin|Hin]; [congruence|]).
    apply elem_of_nil in Hin. exact Hin. }
  rewrite !wire_404 by (reflexivity || exact Hp). reflexivity.
Qed.

Lemma get_depends_on_its_backing_file_only_witness :
  (finish_request sample_library
     (sample_request "GET" "/governance-methodology.txt") sample_files).1
  = (finish_request sample_library
       (sample_request "GET" "/governance-methodology.txt")
       (<["download-server.py" := File (encode "import http.server")]>
          (delete "formatted-governance-methodology.md" sample_files))).1.
Proof.
  apply (get_depends_on_its_backing_file_only sample_library
           (sample_request "GET" "/governance-methodology.txt")).
  - reflexivity.
  - intros name [= <-]. reflexivity.
Defined.

(** ** What [do_GET] does to the handler, from any state *)


(** X3.  [do_GET] only adds to what has gone out on the connection:
    what was sent before it ran is still there, in front. *)
Theorem do_GET_only_appends_to_the_wire lib w :
  exists new, wfile (do_GET lib w).2 = wfile w ++ new.
Proof.
  destruct w as [c p hb cc wf f ck].
  destruct (String.eqb_spec p "/governance-methodology.txt") as [->|N1].
  { destruct (f !! "governance-power-methodology.txt") as [[data|e]|] eqn:E;
      repeat (run_appending; rewrite ?E);
      eexists; rewrite <- ?app_assoc; reflexivity. }
  destruct (String.eqb_spec p "/governance-methodology.md") as [->|N2].
  { destruct (f !! "formatted-governance-methodology.md") as [[data|e]|] eqn:E;
      repeat (run_appending; rewrite ?E);
      eexists; rewrite <- ?app_assoc; reflexivity. }
  destruct (String.eqb_spec p "/") as [->|N3].
  { run_appending. eexists. rewrite <- ?app_assoc. reflexivity. }
  apply String.eqb_neq in N1, N2, N3.
  destruct (String.eqb c "HEAD") eqn:Eh.
  all: run in N1; run in N2; run in N3; run in Eh.
  all: run_appending; rewrite N1, N2, N3, ?Eh.
  all: try destruct (Nat.eqb _ 0).
  all: eexists; rewrite <- ?app_assoc; reflexivity.
Qed.

(** X4.  [do_GET] never asks for the connection to be kept open: on the
    three routes it leaves [close_connection] as it found it, and the
    404 answer, which carries [Connection: close], sets it. *)
Theorem do_GET_never_keeps_the_connection lib w :
  close_connection (do_GET lib w).2 =
    close_connection w || negb (bool_decide (path w ∈ known_paths)).
Proof.
  destruct w as [c p hb cc wf f ck]. cbn [close_connection path].
  destruct (String.eqb_spec p "/governance-methodology.txt") as [->|N1].
  { destruct (f !! "governance-power-methodology.txt") as [[data|e]|] eqn:E;
      repeat (run_appending; rewrite ?E); destruct cc; reflexivity. }
  destruct (String.eqb_spec p "/governance-methodology.md") as [->|N2].
  { destruct (f !! "formatted-governance-methodology.md") as [[data|e]|] eqn:E;
      repeat (run_appending; rewrite ?E); destruct cc; reflexivity. }
  destruct (String.eqb_spec p "/") as [->|N3].
  { run_appending. destruct cc; reflexivity. }
  rewrite bool_decide_eq_false_2.
  2:{ unfold known_paths. intros Hin.
      repeat (apply elem_of_cons in Hin as [Hin|Hin]; [congruence|]).
      apply elem_of_nil in Hin. exact Hin. }
  rewrite orb_true_r.
  apply String.eqb_neq in N1, N2, N3.
  destruct (String.eqb c "HEAD") eqn:Eh.
  all: run in N1; run in N2; run in N3; run in Eh.
  all: run_appending; rewrite N1, N2, N3, ?Eh.
  all: try destruct (Nat.eqb _ 0); reflexivity.
Qed.

(** ** How a response is framed *)

(** X5.  A GET request always gets a well-formed exchange: one block of
    header lines, made of a status line, header lines and the blank
    line, and after it at most one write of body bytes. *)
Theorem get_exchange_is_one_head_then_body lib r f :
  r_command r = "GET" ->
  exists ls,
    is_response_head ls = true /\
    (sent (finish_request lib r f).1 = [Head ls] \/
     exists bs, sent (finish_request lib r f).1 = [Head ls; Payload bs]).
Proof.
  intros Hc. fresh_request r.
  destruct (String.eqb_spec p "/governance-methodology.txt") as [->|N1].
  { destruct (f !! "governance-power-methodology.txt") as [[data|[]]|] eqn:E;
      repeat (run; rewrite ?E); eexists; (split; [|eauto]); reflexivity. }
  destruct (String.eqb_spec p "/governance-methodology.md") as [->|N2].
  { destruct (f !! "formatted-governance-methodology.md") as [[data|[]]|] eqn:E;
      repeat (run; rewrite ?E); eexists; (split; [|eauto]); reflexivity. }
  destruct (String.eqb_spec p "/") as [->|N3].
  { run. eexists. split; [|eauto]. reflexivity. }
  rewrite wire_404; [|reflexivity|].
  2:{ unfold known_paths. cbn [r_path]. intros Hin.
      repeat (apply elem_of_cons in Hin as [Hin|Hin]; [congruence|]).
      apply elem_of_nil in Hin. exact Hin. }
  unfold error_wire. cbn [fst sent].
  destruct (Nat.eqb _ 0); eexists; (split; [|eauto]); reflexivity.
Qed.

Lemma get_exchange_is_one_head_then_body_witness :
  exists ls,
    is_response_head ls = true /\
    (sent (finish_request sample_library
             (sample_request "GET" "/governance-methodology.md") ∅).1 = [Head ls] \/
     exists bs,
       sent (finish_request sample_library
               (sample_request "GET" "/governance-methodology.md") ∅).1
         = [Head ls; Payload bs]).
Proof.
  apply (get_exchange_is_one_head_then_body sample_library
           (sample_request "GET" "/governance-methodology.md") ∅).
  reflexivity.
Defined.

(** X6.  The three 200 answers carry neither a [Content-Length] nor a
    [Connection] header: the handler sets none, so that the end of the
    body is the end of the connection. *)
Theorem ok_answers_have_no_content_length lib r f :
  r_command r = "GET" ->
  r_path r ∈ known_paths ->
  header "Content-Length" (headers (respond lib r f)) = None /\
  header "Connection" (headers (respond lib r f)) = None.
Proof.
  intros Hc Hp. fresh_request r. unfold known_paths in Hp.
  repeat (apply elem_of_cons in Hp as [->|Hp]);
    [| | | apply elem_of_nil in Hp; destruct Hp].
  - destruct (f !! "governance-power-methodology.txt") as [[data|[]]|] eqn:E;
      repeat (run; rewrite ?E); split; reflexivity.
  - destruct (f !! "formatted-governance-methodology.md") as [[data|[]]|] eqn:E;
      repeat (run; rewrite ?E); split; reflexivity.
  - split; reflexivity.
Qed.

Lemma ok_answers_have_no_content_length_witness :
  header "Content-Length"
    (headers (respond sample_library
                (sample_request "GET" "/governance-methodology.txt") sample_files))
  = None.
Proof.
  apply (ok_answers_have_no_content_length sample_library
           (sample_request "GET" "/governance-methodology.txt") sample_files).
  - reflexivity.
  - unfold known_paths. apply elem_of_cons. left. reflexivity.
Defined.

Lemma body_of_error_wire lib ck code m :
  body_of (error_wire lib ck code m) = error_page lib code m.
Proof.
  unfold error_wire.
  destruct (Nat.eqb (length (error_page lib code m)) 0) eqn:E.
  - apply Nat.eqb_eq in E. destruct (error_page lib code m); [reflexivity|discriminate].
  - cbn. apply app_nil_r.
Qed.

(** X7.  The error answers are framed by their length: for the 404 of an
    unknown path and for the 501 of an unsupported method, the
    [Content-Length] header is the number of body bytes that follow, and
    the answer carries [Connection: close] and the content type of the
    library's error page. *)
Theorem error_answers_state_their_length lib r f :
  (r_command r = "GET" /\ r_path r ∉ known_paths) \/
  (r_command r <> "GET" /\ r_command r <> "HEAD") ->
  header "Content-Length" (headers (respond lib r f))
    = Some (pretty (length (body (respond lib r f)))) /\
  header "Connection" (headers (respond lib r f)) = Some "close" /\
  header "Content-Type" (headers (respond lib r f)) = Some error_content_type.
Proof.
  intros [[Hc Hp]|[Hg Hh]]; unfold respond.
  - rewrite (wire_404 lib r f Hc Hp). cbn [fst sent response_of headers body].
    rewrite body_of_error_wire. repeat split; reflexivity.
  - rewrite (wire_501 lib r f Hg Hh). cbn [fst sent response_of headers body].
    rewrite body_of_error_wire. repeat split; reflexivity.
Qed.

Lemma error_answers_state_their_length_witness :
  header "Content-Length"
    (headers (respond sample_library (sample_request "GET" "/missing") sample_files))
  = Some "15" /\
  header "Connection"
    (headers (respond sample_library (sample_request "DELETE" "/") sample_files))
  = Some "close".
Proof.
  split.
  - apply (error_answers_state_their_length sample_library
             (sample_request "GET" "/missing") sample_files).
    left. split; [reflexivity|]. simpl. not_a_known_path.
  - apply (error_answers_state_their_length sample_library
             (sample_request "DELETE" "/") sample_files).
    right. split; discriminate.
Defined.

(** ** Failures *)

(** X8.  When port 8080 is taken, the start-up raises the bind error
    before any line is printed: the process is left as it was and no
    request is served. *)
Theorem startup_fails_when_port_is_taken lib rs f p :
  8080 ∈ ports_in_use p ->
  startup p = (Raise (OSError EADDRINUSE EmptyString), p) /\
  main lib rs f p = (p, None).
Proof.
  intros Hin.
  assert (Hs : startup p = (Raise (OSError EADDRINUSE EmptyString), p)).
  { unfold startup, bind, TCPServer, PORT. cbn [snd].
    rewrite bool_decide_eq_true_2 by exact Hin. reflexivity. }
  split; [exact Hs|]. unfold main. rewrite Hs. reflexivity.
Qed.

Lemma startup_fails_when_port_is_taken_witness :
  stdout (startup
            {| argv := []; environ := ∅; ports_in_use := {[8080]};
               listening := None; stdout := [] |}).2 = [] /\
  (main sample_library [sample_request "GET" "/"] sample_files
     {| argv := []; environ := ∅; ports_in_use := {[8080]};
        listening := None; stdout := [] |}).2 = None.
Proof.
  pose proof (startup_fails_when_port_is_taken sample_library
                [sample_request "GET" "/"] sample_files
                {| argv := []; environ := ∅; ports_in_use := {[8080]};
                   listening := None; stdout := [] |}) as H.
  destruct H as [Hs Hm].
  - cbn [ports_in_use]. apply elem_of_singleton. reflexivity.
  - rewrite Hs, Hm. split; reflexivity.
Defined.

(** X9.  The error of a failed download is the one of the file behind
    it, under that file's name and not the request path: a missing file
    gives ENOENT, an entry that fails to open gives its own error. *)
Theorem failed_download_names_its_file lib r f name :
  backing_file (r_path r) = Some name ->
  (f !! name = None ->
     (do_GET lib (new_handler r f)).1 = Raise (OSError ENOENT name)) /\
  (forall e, f !! name = Some (Unreadable e) ->
     (do_GET lib (new_handler r f)).1 = Raise (OSError e name)).
Proof.
  intros Hb. apply backing_file_cases in Hb as [[Hp ->]|[Hp ->]];
    fresh_request r; split.
  all: try (intros E; run; rewrite E; reflexivity).
  all: intros e E; run; rewrite E; reflexivity.
Qed.

Lemma failed_download_names_its_file_witness :
  (do_GET sample_library
     (new_handler (sample_request "GET" "/governance-methodology.txt")
        (<["governance-power-methodology.txt" := Unreadable EACCES]> ∅))).1
  = Raise (OSError EACCES "governance-power-methodology.txt").
Proof.
  pose proof (failed_download_names_its_file sample_library
                (sample_request "GET" "/governance-methodology.txt")
                (<["governance-power-methodology.txt" := Unreadable EACCES]> ∅)
                "governance-power-methodology.txt" eq_refl) as [_ H].
  apply H. reflexivity.
Defined.

(** ** Routing *)



Lemma append_eq_self a s : a +:+ s = a -> s = EmptyString.
Proof.
  induction a as [|c a IH]; [intros H; exact H|].
  change (String c a +:+ s) with (String c (a +:+ s)).
  intros [= H]. exact (IH H).
Qed.

(** X11.  The routes are matched whole, never as prefixes: a download
    path followed by anything at all is answered 404. *)
Theorem longer_path_is_not_a_download lib r f p s :
  r_command r = "GET" ->
  p ∈ ["/governance-methodology.txt"; "/governance-methodology.md"] ->
  s <> EmptyString ->
  r_path r = p +:+ s ->
  status (respond lib r f) = Some 404.
Proof.
  intros Hc Hp Hs Hr.
  unfold respond. rewrite (wire_404 lib r f Hc); [apply status_of_error_wire|].
  rewrite Hr. unfold known_paths.
  repeat (apply elem_of_cons in Hp as [->|Hp]);
    [| | apply elem_of_nil in Hp; destruct Hp].
  all: intros Hin.
  all: repeat (apply elem_of_cons in Hin as [Hin|Hin];
               [first [discriminate Hin | apply append_eq_self in Hin; contradiction]|]).
  all: apply elem_of_nil in Hin; exact Hin.
Qed.

Lemma longer_path_is_not_a_download_witness :
  status (respond sample_library
            (sample_request "GET" "/governance-methodology.txt/") sample_files)
  = Some 404.
Proof.
  apply (longer_path_is_not_a_download sample_library
           (sample_request "GET" "/governance-methodology.txt/") sample_files
           "/governance-methodology.txt" "/").
  - reflexivity.
  - apply elem_of_cons. left. reflexivity.
  - discriminate.
  - reflexivity.
Defined.

Lemma known_path_status lib r f :
  r_command r = "GET" ->
  r_path r ∈ known_paths ->
  status (respond lib r f) = Some 200.
Proof.
  intros Hc Hp. fresh_request r. unfold known_paths in Hp.
  repeat (apply elem_of_cons in Hp as [->|Hp]);
    [| | | apply elem_of_nil in Hp; destruct Hp].
  - destruct (f !! "governance-power-methodology.txt") as [[data|[]]|] eqn:E;
      repeat (run; rewrite ?E); reflexivity.
  - destruct (f !! "formatted-governance-methodology.md") as [[data|[]]|] eqn:E;
      repeat (run; rewrite ?E); reflexivity.
  - reflexivity.
Qed.

(** X12.  No link of the landing page is broken: the page has two links,
    and a GET for the target of either is answered 200, whatever the
    files are. *)
Theorem every_link_of_the_page_is_served lib f :
  length (hrefs html) = 2%nat /\
  forall target r,
    target ∈ hrefs html ->
    r_command r = "GET" ->
    r_path r = target ->
    status (respond lib r f) = Some 200.
Proof.
  assert (Hl : hrefs html =
    ["/governance-methodology.txt"; "/governance-methodology.md"]).
  { vm_compute. reflexivity. }
  rewrite Hl. split; [reflexivity|].
  intros target r Hin Hc Hr. apply (known_path_status lib r f Hc).
  rewrite Hr. unfold known_paths.
  apply elem_of_cons in Hin as [->|Hin]; [apply elem_of_cons; left; reflexivity|].
  apply elem_of_cons in Hin as [->|Hin].
  - apply elem_of_cons. right. apply elem_of_cons. left. reflexivity.
  - apply elem_of_nil in Hin. destruct Hin.
Qed.

Lemma every_link_of_the_page_is_served_witness :
  "/governance-methodology.md" ∈ hrefs html /\
  status (respond sample_library
            (sample_request "GET" "/governance-methodology.md") ∅) = Some 200.
Proof.
  assert (Hin : "/governance-methodology.md" ∈ hrefs html).
  { vm_compute. apply elem_of_cons. right. apply elem_of_cons. left. reflexivity. }
  split; [exact Hin|].
  apply (proj2 (every_link_of_the_page_is_served sample_library ∅)
           "/governance-methodology.md"
           (sample_request "GET" "/governance-methodology.md") Hin);
    reflexivity.
Defined.

(** ** The server loop *)

(** X13.  The server answers requests one by one: over any run of
    requests, the exchanges are those each request gets on its own from
    the same files, in the order of arrival; a download that fails does
    not change what the next request gets.  The inherited [do_HEAD] is
    taken to read files only. *)
Theorem serve_answers_each_request_on_its_own lib rs f :
  reads_only (inherited_do_HEAD lib) ->
  (serve lib rs f).1 = map (fun r => (finish_request lib r f).1) rs.
Proof.
  intros Hhead. induction rs as [|r rs IH]; [reflexivity|].
  cbn [serve map].
  pose proof (finish_request_reads_only lib r f Hhead) as Hr.
  destruct (finish_request lib r f) as [x f']. simpl in Hr. subst f'.
  destruct (serve lib rs f) as [xs f'']. simpl in *. rewrite IH. reflexivity.
Qed.

Lemma serve_answers_each_request_on_its_own_witness :
  (serve sample_library
     [sample_request "GET" "/governance-methodology.txt";
      sample_request "GET" "/"] ∅).1
  = map (fun r => (finish_request sample_library r ∅).1)
      [sample_request "GET" "/governance-methodology.txt";
       sample_request "GET" "/"].
Proof.
  apply (serve_answers_each_request_on_its_own sample_library).
  intros w. reflexivity.
Defined.
